(** * HASNA license server: the license lifecycle, verified

    A shallow embedding of [hasna-license-server/index.js]: the two tables
    the server keeps, its five request handlers and the key generator,
    followed by the properties of the license lifecycle.

    Conventions of the embedding.
    - A JavaScript [Date] is its time value, the milliseconds since the
      epoch, in [Z].  A [DATE] column is a day number (days since the epoch);
      the storage driver hands it to the handler as the [Date] of that
      day's midnight ([Date_of_DATE]).  The server's time zone is taken to
      be UTC.
    - A field of a JSON body or a header is absent ([None], JavaScript's
      [undefined]) or a string; strings are byte strings and case mapping
      and trimming act on their ASCII characters.
    - A handler runs alone against the store, and a statement succeeds
      unless it breaks a [NOT NULL] or [UNIQUE] constraint of its table;
      the length limits of the columns and the connections of the pool
      are not modelled. *)

From Stdlib Require Import ZArith QArith Qround Ascii String.
From stdpp Require Import base option list strings pretty gmap sorting.

Local Open Scope Z_scope.

(** ** JavaScript values and string methods *)

(** [!v] for a value that is absent or a string: absent and the empty
    string are falsy. *)
Definition falsy (v : option string) : bool :=
  match v with
  | None => true
  | Some s => bool_decide (s = "")
  end.

Definition truthy (v : option string) : bool := negb (falsy v).

(** [a || b] on such values. *)
Definition js_or (a b : option string) : option string :=
  if truthy a then a else b.

(** [a !== b] on such values. *)
Definition strict_ne (a b : option string) : bool :=
  negb (bool_decide (a = b)).

Definition upper_ascii (c : ascii) : ascii :=
  let n := nat_of_ascii c in
  if ((97 <=? n) && (n <=? 122))%nat then ascii_of_nat (n - 32) else c.

Fixpoint toUpperCase (s : string) : string :=
  match s with
  | EmptyString => EmptyString
  | String c s' => String (upper_ascii c) (toUpperCase s')
  end.

(** White space and line terminators of the ASCII range. *)
Definition is_white (c : ascii) : bool :=
  let n := nat_of_ascii c in
  ((9 <=? n) && (n <=? 13) || (n =? 32))%nat.

Fixpoint trimStart (s : string) : string :=
  match s with
  | EmptyString => EmptyString
  | String c s' => if is_white c then trimStart s' else s
  end.

Fixpoint trimEnd (s : string) : string :=
  match s with
  | EmptyString => EmptyString
  | String c s' =>
      match trimEnd s' with
      | EmptyString => if is_white c then EmptyString else String c EmptyString
      | t => String c t
      end
  end.

Definition trim (s : string) : string := trimEnd (trimStart s).

(** [s.charAt(i)]: the one-character string at index [i], the empty string
    when [i] is out of range. *)
Definition charAt (s : string) (i : Z) : string :=
  if i <? 0 then ""
  else match String.get (Z.to_nat i) s with
       | Some c => String c ""
       | None => ""
       end.

(** [segments.join(sep)]. *)
Fixpoint join (sep : string) (segments : list string) : string :=
  match segments with
  | [] => ""
  | [x] => x
  | x :: rest => x +:+ sep +:+ join sep rest
  end.

(** ** The key generator *)

(** [Math.random] is a stream of draws; [pos] counts the draws taken so
    far.  A draw is a double of [0, 1), here a rational; the product with
    the alphabet's length is taken exactly. *)
Definition RandomSource : Type := nat -> Q.

Definition Math_floor (q : Q) : Z := Qfloor q.
Definition Math_ceil (q : Q) : Z := Qceiling q.

Definition chars : string := "ABCDEFGHIJKLMNOPQRSTUVWXYZ0123456789".

(** The inner loop: [for (let i = 0; i < 4; i++) segment += chars.charAt(...)],
    with [n] iterations left. *)
Fixpoint segment_loop (n : nat) (random : RandomSource) (pos : nat) (segment : string)
  : string * nat :=
  match n with
  | O => (segment, pos)
  | S n' =>
      let c := charAt chars
                 (Math_floor (random pos * inject_Z (Z.of_nat (String.length chars)))) in
      segment_loop n' random (S pos) (segment +:+ c)
  end.

(** The outer loop: [for (let s = 0; s < 4; s++) { ...; segments.push(segment) }]. *)
Fixpoint segments_loop (n : nat) (random : RandomSource) (pos : nat) (segments : list string)
  : list string * nat :=
  match n with
  | O => (segments, pos)
  | S n' =>
      let '(segment, pos') := segment_loop 4 random pos "" in
      segments_loop n' random pos' (segments ++ [segment])
  end.

Definition generateLicenseKey (random : RandomSource) : string :=
  "HASNA-" +:+ join "-" (fst (segments_loop 4 random 0 [])).

(** ** Time *)

Definition MS_PER_DAY : Z := 1000 * 60 * 60 * 24.

(** The [Date] the handler gets for a [DATE] column: that day's midnight. *)
Definition Date_of_DATE (day : Z) : Z := day * MS_PER_DAY.

(** The calendar date an instant falls on. *)
Definition date_of_instant (t : Z) : Z := t / MS_PER_DAY.

(** Year, month and day of a day number (proleptic Gregorian calendar). *)
Definition civil_from_days (day : Z) : Z * Z * Z :=
  let z := day + 719468 in
  let era := z / 146097 in
  let doe := z - era * 146097 in
  let yoe := (doe - doe / 1460 + doe / 36524 - doe / 146096) / 365 in
  let doy := doe - (365 * yoe + yoe / 4 - yoe / 100) in
  let mp := (5 * doy + 2) / 153 in
  let d := doy - (153 * mp + 2) / 5 + 1 in
  let m := if mp <? 10 then mp + 3 else mp - 9 in
  let y := yoe + era * 400 in
  (if m <=? 2 then y + 1 else y, m, d).

Definition two_digits (n : Z) : string :=
  if n <? 10 then "0" +:+ pretty n else pretty n.

(** [date.toLocaleDateString('fr-FR')]: day/month/year. *)
Definition toLocaleDateString_fr (t : Z) : string :=
  let '(y, m, d) := civil_from_days (date_of_instant t) in
  two_digits d +:+ "/" +:+ two_digits m +:+ "/" +:+ pretty y.

(** [Math.ceil((expiresAt - today) / (1000 * 60 * 60 * 24))]. *)
Definition daysRemaining (expiresAt today : Z) : Z :=
  Math_ceil (inject_Z (expiresAt - today) / inject_Z MS_PER_DAY).

(** ** The store *)

(** A row of [licenses] (the surrogate [id] is left out: no handler reads
    it). *)
Record License : Type := mkLicense {
  license_key : string;
  client_name : string;
  client_email : option string;
  machine_id : option string;
  activated_at : option Z;
  expires_at : Z;
  is_active : bool;
  created_at : Z;
  notes : option string
}.

(** A row of [activation_logs]. *)
Record LogEntry : Type := mkLogEntry {
  log_license_key : string;
  log_machine_id : string;
  log_ip_address : option string;
  log_action : string;
  log_success : bool;
  log_message : string;
  log_created_at : Z
}.

(** [licenses] is keyed by [license_key], which the table declares
    [UNIQUE]; [activation_logs] grows at its end. *)
Record Db : Type := mkDb {
  licenses : gmap string License;
  activation_logs : list LogEntry
}.

#[export] Instance License_eq_dec : EqDecision License.
Proof. solve_decision. Defined.

#[export] Instance LogEntry_eq_dec : EqDecision LogEntry.
Proof. solve_decision. Defined.

(** ** Handlers run in a state and exception monad over the store *)

Inductive Exn : Type :=
| TypeError      (* a method called on [undefined] *)
| StorageError.  (* a statement the store rejects *)

Inductive Outcome (A : Type) : Type :=
| Returned (a : A)
| Thrown (e : Exn).
Arguments Returned {A} a.
Arguments Thrown {A} e.

Definition M (A : Type) : Type := Db -> Outcome A * Db.

#[export] Instance M_ret : MRet M := fun A a db => (Returned a, db).

#[export] Instance M_bind : MBind M := fun A B f m db =>
  match m db with
  | (Returned a, db') => f a db'
  | (Thrown e, db') => (Thrown e, db')
  end.

Definition throw {A : Type} (e : Exn) : M A := fun db => (Thrown e, db).

(** [try { body } catch (err) { handler }]: what [body] wrote before it
    threw stays written. *)
Definition try_catch {A : Type} (body : M A) (handler : Exn -> M A) : M A := fun db =>
  match body db with
  | (Returned a, db') => (Returned a, db')
  | (Thrown e, db') => handler e db'
  end.

(** [v.toUpperCase().trim()] where [v] may be [undefined]. *)
Definition toUpperCase_trim (v : option string) : M string :=
  match v with
  | Some s => mret (trim (toUpperCase s))
  | None => throw TypeError
  end.

(** *** The statements the handlers send *)

(** [SELECT * FROM licenses WHERE license_key = $1] *)
Definition select_by_key (key : string) : M (list License) := fun db =>
  (Returned (option_list (licenses db !! key)), db).

(** [SELECT * FROM licenses WHERE license_key = $1 AND machine_id = $2]:
    a row whose [machine_id] is [NULL] matches no [$2]. *)
Definition select_by_key_and_machine (key : string) (machine : option string)
  : M (list License) := fun db =>
  (Returned (filter (fun l => is_Some machine /\ machine_id l = machine)
                    (option_list (licenses db !! key))), db).

Definition bind_machine (machine : option string) (at_ : Z) (l : License) : License :=
  mkLicense (license_key l) (client_name l) (client_email l)
            machine (Some at_)
            (expires_at l) (is_active l) (created_at l) (notes l).

Definition clear_machine (l : License) : License :=
  mkLicense (license_key l) (client_name l) (client_email l)
            None (activated_at l)
            (expires_at l) (is_active l) (created_at l) (notes l).

(** [UPDATE licenses SET machine_id = $1, activated_at = CURRENT_TIMESTAMP
     WHERE license_key = $2] *)
Definition update_machine (machine : option string) (key : string) (current_timestamp : Z)
  : M unit := fun db =>
  (Returned tt,
   mkDb (alter (bind_machine machine current_timestamp) key (licenses db))
        (activation_logs db)).

(** [UPDATE licenses SET machine_id = NULL WHERE license_key = $1 RETURNING *] *)
Definition update_reset_machine (key : string) : M (list License) := fun db =>
  (Returned (option_list (clear_machine <$> licenses db !! key)),
   mkDb (alter clear_machine key (licenses db)) (activation_logs db)).

(** [INSERT INTO licenses (license_key, client_name, client_email, expires_at, notes)]:
    [client_name] and [expires_at] are [NOT NULL], [license_key] is
    [UNIQUE], and the other columns take their defaults. *)
Definition insert_license (key : string) (name email : option string) (expires : option Z)
    (notes_ : option string) (current_timestamp : Z) : M unit := fun db =>
  match name, expires, licenses db !! key with
  | Some n, Some e, None =>
      (Returned tt,
       mkDb (<[key := mkLicense key n email None None e true current_timestamp notes_]>
               (licenses db))
            (activation_logs db))
  | _, _, _ => (Thrown StorageError, db)
  end.

(** [INSERT INTO activation_logs (license_key, machine_id, ip_address,
    action, success, message)]: [license_key] and [machine_id] are
    [NOT NULL]. *)
Definition insert_log (key machine ip : option string) (action : string) (success_ : bool)
    (message_ : string) (current_timestamp : Z) : M unit := fun db =>
  match key, machine with
  | Some k, Some m =>
      (Returned tt,
       mkDb (licenses db)
            (activation_logs db
               ++ [mkLogEntry k m ip action success_ message_ current_timestamp]))
  | _, _ => (Thrown StorageError, db)
  end.

(** [ORDER BY created_at DESC]: the newer row comes first. *)
Definition newer_first (a b : License) : Prop := created_at b <= created_at a.

#[export] Instance newer_first_dec (a b : License) : Decision (newer_first a b).
Proof. unfold newer_first. apply _. Defined.

(** [SELECT * FROM licenses ORDER BY created_at DESC] *)
Definition select_all : M (list License) := fun db =>
  (Returned (merge_sort newer_first (snd <$> map_to_list (licenses db))), db).

(** ** Requests and responses *)

(** [req.body], the headers the handlers read, and the peer's address. *)
Record Request : Type := mkRequest {
  body_license_key : option string;
  body_machine_id : option string;
  body_admin_key : option string;
  body_client_name : option string;
  body_client_email : option string;
  body_expires_at : option Z;   (* the day the supplied date denotes *)
  body_notes : option string;
  header_x_forwarded_for : option string;
  header_x_admin_key : option string;
  socket_remoteAddress : option string
}.

(** What a handler reads from outside the request and the store:
    [process.env.ADMIN_KEY], the clock and [Math.random]. *)
Record World : Type := mkWorld {
  ADMIN_KEY : option string;
  now : Z;
  Math_random : RandomSource
}.

(** The [data] member of a response body. *)
Inductive Data : Type :=
| NoData
| ActivateData (client_name_ : string) (expires_at_ : Z) (days_remaining : Z)
| VerifyData (client_name_ : string) (expires_at_ : Z) (days_remaining : Z)
             (is_active_ : bool)
| CreateData (license_key_ : string) (client_name_ : option string)
             (expires_at_ : option Z)
| ListData (rows : list License).

(** [res.status(code).json({success, valid, message, data})]; a member the
    handler does not set is [None] or [NoData]. *)
Record Response : Type := mkResponse {
  status : Z;
  success : bool;
  valid : option bool;
  message : option string;
  data : Data
}.

Definition failure (code : Z) (msg : string) : Response :=
  mkResponse code false None (Some msg) NoData.

(** ** The handlers *)

(** [logActivation]: a failed insertion is swallowed. *)
Definition logActivation (license_key_ machine_id_ ip_address : option string)
    (action : string) (success_ : bool) (message_ : string) (current_timestamp : Z)
  : M unit :=
  try_catch
    (insert_log license_key_ machine_id_ ip_address action success_ message_
                current_timestamp)
    (fun _ => mret tt).

(** [POST /api/license/activate] *)
Definition activate (w : World) (req : Request) : M Response :=
  let license_key_ := body_license_key req in
  let machine_id_ := body_machine_id req in
  let ip_address := js_or (header_x_forwarded_for req) (socket_remoteAddress req) in
  if falsy license_key_ || falsy machine_id_ then
    mret (failure 400 "Clé de licence et identifiant machine requis")
  else
    try_catch
      (key ← toUpperCase_trim license_key_;
       rows ← select_by_key key;
       match rows with
       | [] =>
           logActivation license_key_ machine_id_ ip_address "ACTIVATE" false
                         "Clé invalide" (now w);;
           mret (failure 404 "Clé de licence invalide")
       | license :: _ =>
           if negb (is_active license) then
             logActivation license_key_ machine_id_ ip_address "ACTIVATE" false
                           "Licence désactivée" (now w);;
             mret (failure 403 "Cette licence a été désactivée")
           else
             let today := now w in
             let expiresAt := Date_of_DATE (expires_at license) in
             if today >? expiresAt then
               logActivation license_key_ machine_id_ ip_address "ACTIVATE" false
                             "Licence expirée" (now w);;
               mret (failure 403 ("Cette licence a expiré le "
                                  +:+ toLocaleDateString_fr expiresAt))
             else if truthy (machine_id license)
                     && strict_ne (machine_id license) machine_id_ then
               logActivation license_key_ machine_id_ ip_address "ACTIVATE" false
                             "Déjà activée sur autre machine" (now w);;
               mret (failure 403 "Cette licence est déjà activée sur un autre ordinateur. Contactez le support pour la transférer.")
             else
               (if falsy (machine_id license) then
                  key' ← toUpperCase_trim license_key_;
                  update_machine machine_id_ key' (now w)
                else mret tt);;
               logActivation license_key_ machine_id_ ip_address "ACTIVATE" true
                             "Activation réussie" (now w);;
               mret (mkResponse 200 true None (Some "Licence activée avec succès")
                       (ActivateData (client_name license) (expires_at license)
                                     (daysRemaining expiresAt today)))
       end)
      (fun _ => mret (failure 500 "Erreur serveur lors de l'activation")).

(** [POST /api/license/verify] *)
Definition verify (w : World) (req : Request) : M Response :=
  let license_key_ := body_license_key req in
  let machine_id_ := body_machine_id req in
  if falsy license_key_ || falsy machine_id_ then
    mret (failure 400 "Clé de licence et identifiant machine requis")
  else
    try_catch
      (key ← toUpperCase_trim license_key_;
       rows ← select_by_key_and_machine key machine_id_;
       match rows with
       | [] =>
           mret (mkResponse 200 false (Some false)
                   (Some "Licence non trouvée ou machine non autorisée") NoData)
       | license :: _ =>
           let today := now w in
           let expiresAt := Date_of_DATE (expires_at license) in
           let isValid := is_active license && (today <=? expiresAt) in
           mret (mkResponse 200 true (Some isValid) None
                   (VerifyData (client_name license) (expires_at license)
                               (daysRemaining expiresAt today) (is_active license)))
       end)
      (fun _ => mret (failure 500 "Erreur serveur")).

(** [POST /api/admin/license/create] *)
Definition create (w : World) (req : Request) : M Response :=
  let admin_key := body_admin_key req in
  let client_name_ := body_client_name req in
  let client_email_ := body_client_email req in
  let expires_at_ := body_expires_at req in
  let notes_ := body_notes req in
  if strict_ne admin_key (ADMIN_KEY w) then
    mret (failure 401 "Accès non autorisé")
  else if falsy client_name_ || negb (bool_decide (is_Some expires_at_)) then
    mret (failure 400 "Nom du client et date d'expiration requis")
  else
    let license_key_ := generateLicenseKey (Math_random w) in
    try_catch
      (insert_license license_key_ client_name_ client_email_ expires_at_ notes_ (now w);;
       mret (mkResponse 200 true None (Some "Licence créée avec succès")
               (CreateData license_key_ client_name_ expires_at_)))
      (fun _ => mret (failure 500 "Erreur lors de la création de la licence")).

(** [GET /api/admin/licenses] *)
Definition list_licenses (w : World) (req : Request) : M Response :=
  let admin_key := header_x_admin_key req in
  if strict_ne admin_key (ADMIN_KEY w) then
    mret (failure 401 "Accès non autorisé")
  else
    try_catch
      (rows ← select_all;
       mret (mkResponse 200 true None None (ListData rows)))
      (fun _ => mret (failure 500 "Erreur serveur")).

(** The [try] block of the reset-machine handler. *)
Definition resetMachine_try (license_key_ : option string) : M Response :=
  key ← toUpperCase_trim license_key_;
  rows ← update_reset_machine key;
  match rows with
  | [] => mret (failure 404 "Licence non trouvée")
  | _ :: _ =>
      mret (mkResponse 200 true None
              (Some "Machine réinitialisée. La licence peut être activée sur un nouveau PC.")
              NoData)
  end.

(** [POST /api/admin/license/reset-machine] *)
Definition resetMachine (w : World) (req : Request) : M Response :=
  let admin_key := body_admin_key req in
  let license_key_ := body_license_key req in
  if strict_ne admin_key (ADMIN_KEY w) then
    mret (failure 401 "Accès non autorisé")
  else
    try_catch (resetMachine_try license_key_)
              (fun _ => mret (failure 500 "Erreur serveur")).

(** ** The shape of a license key *)

(** A character of the alphabet [A-Z0-9]. *)
Definition is_key_char (c : ascii) : bool :=
  let n := nat_of_ascii c in
  ((65 <=? n) && (n <=? 90) || (48 <=? n) && (n <=? 57))%nat.

Fixpoint all_key_chars (g : string) : bool :=
  match g with
  | EmptyString => true
  | String c g' => is_key_char c && all_key_chars g'
  end.

(** A group [XXXX]: four characters of the alphabet. *)
Definition is_group (g : string) : bool :=
  (String.length g =? 4)%nat && all_key_chars g.

(** [HASNA-XXXX-XXXX-XXXX-XXXX]. *)
Definition key_shape (k : string) : Prop :=
  exists g1 g2 g3 g4 : string,
    k = "HASNA-" +:+ g1 +:+ "-" +:+ g2 +:+ "-" +:+ g3 +:+ "-" +:+ g4
    /\ is_group g1 = true /\ is_group g2 = true
    /\ is_group g3 = true /\ is_group g4 = true.

(** [Math.random]'s contract: every draw lies in [0, 1). *)
Definition unit_interval (random : RandomSource) : Prop :=
  forall i : nat, (0 <= random i)%Q /\ (random i < 1)%Q.

(** ** The vocabulary of the statements *)

(** [req] passes the validation of activate and verify: it carries the
    non-empty key [raw] and the non-empty machine identifier [m]. *)
Definition validated (req : Request) (raw m : string) : Prop :=
  body_license_key req = Some raw /\ raw <> ""
  /\ body_machine_id req = Some m /\ m <> "".

(** The key a request's [license_key] is looked up under. *)
Definition normalize (raw : string) : string := trim (toUpperCase raw).

(** The audit entry activate writes for [req]. *)
Definition audit (w : World) (req : Request) (raw m : string) (ok : bool) (msg : string)
  : LogEntry :=
  mkLogEntry raw m (js_or (header_x_forwarded_for req) (socket_remoteAddress req))
             "ACTIVATE" ok msg (now w).

(** The store with one more audit entry. *)
Definition with_log (db : Db) (e : LogEntry) : Db :=
  mkDb (licenses db) (activation_logs db ++ [e]).

(** The expired-license error of activate. *)
Definition expired_error (l : License) : Response :=
  failure 403 ("Cette licence a expiré le "
               +:+ toLocaleDateString_fr (Date_of_DATE (expires_at l))).

(** The bound-elsewhere error of activate. *)
Definition other_machine_error : Response :=
  failure 403 "Cette licence est déjà activée sur un autre ordinateur. Contactez le support pour la transférer.".

(** A license for the examples: it expires on day 20000 (4 October 2024)
    and is bound to [PC-001]. *)
Definition bound_license : License :=
  mkLicense "HASNA-AB12-CD34-EF56-GH78" "Moulin Test" None
            (Some "PC-001") (Some 1700000000000) 20000 true 1690000000000 None.

(** The same license before its first activation. *)
Definition unbound_license : License :=
  mkLicense "HASNA-AB12-CD34-EF56-GH78" "Moulin Test" None
            None None 20000 true 1690000000000 None.

(** A store holding one license and an empty audit log. *)
Definition db_of (l : License) : Db := mkDb {[ license_key l := l ]} [].

(** An activate or verify request for a key from a machine. *)
Definition activation_request (key machine : string) : Request :=
  mkRequest (Some key) (Some machine) None None None None None
            None None (Some "203.0.113.7").

(** A server configured with a secret, at instant [t]; every draw of
    [Math.random] is 0. *)
Definition world_at (t : Z) : World := mkWorld (Some "s3cret") t (fun _ => 0%Q).

(** A reset-machine request with the given secret and key. *)
Definition reset_request (secret key : option string) : Request :=
  mkRequest key None secret None None None None None None (Some "203.0.113.7").

(** A create request for a client and an expiry day. *)
Definition create_request (secret : option string) (name : string) (expires : Z) : Request :=
  mkRequest None None secret (Some name) None (Some expires) None
            None None (Some "203.0.113.7").

(** The answer of verify when no row matches key and machine. *)
Definition not_found_or_not_authorized : Response :=
  mkResponse 200 false (Some false)
             (Some "Licence non trouvée ou machine non autorisée") NoData.

(** The store with the license under [key] removed. *)
Definition without_license (key : string) (db : Db) : Db :=
  mkDb (delete key (licenses db)) (activation_logs db).

(** The answer of an administrative handler to a secret that differs. *)
Definition unauthorized : Response := failure 401 "Accès non autorisé".

(** The answer of a reset that matched a license. *)
Definition reset_done : Response :=
  mkResponse 200 true None
    (Some "Machine réinitialisée. La licence peut être activée sur un nouveau PC.")
    NoData.


(** ** The routes and traces of requests *)

(** The routes the server registers, apart from the health check. *)
Inductive Route : Type :=
| PostLicenseActivate        (* POST /api/license/activate *)
| PostLicenseVerify          (* POST /api/license/verify *)
| PostAdminLicenseCreate     (* POST /api/admin/license/create *)
| GetAdminLicenses           (* GET /api/admin/licenses *)
| PostAdminLicenseResetMachine.  (* POST /api/admin/license/reset-machine *)

Definition dispatch (route : Route) : World -> Request -> M Response :=
  match route with
  | PostLicenseActivate => activate
  | PostLicenseVerify => verify
  | PostAdminLicenseCreate => create
  | GetAdminLicenses => list_licenses
  | PostAdminLicenseResetMachine => resetMachine
  end.

(** One request as the server meets it: the route, what the handler reads
    from outside at that moment, and the request. *)
Record Call : Type := mkCall {
  call_route : Route;
  call_world : World;
  call_request : Request
}.

(** The store after a call, and after a sequence of calls served one
    after the other. *)
Definition serve (db : Db) (c : Call) : Db :=
  snd (dispatch (call_route c) (call_world c) (call_request c) db).

Definition serve_all (calls : list Call) (db : Db) : Db :=
  fold_left serve calls db.

(** Two rows that agree on every column except [machine_id] and
    [activated_at]. *)
Definition same_terms (l l' : License) : Prop :=
  license_key l' = license_key l
  /\ client_name l' = client_name l
  /\ client_email l' = client_email l
  /\ expires_at l' = expires_at l
  /\ is_active l' = is_active l
  /\ created_at l' = created_at l
  /\ notes l' = notes l.




(** A character that may occur in a generated key: one of the alphabet,
    or the hyphen. *)
Definition is_plain_char (c : ascii) : bool :=
  is_key_char c || (nat_of_ascii c =? 45)%nat.

Fixpoint all_plain (s : string) : bool :=
  match s with
  | EmptyString => true
  | String c s' => is_plain_char c && all_plain s'
  end.

(** Draws for the examples: 0 and 1/2 in turn. *)
Definition alternating_draws : RandomSource :=
  fun n => if Nat.even n then 0%Q else (1 # 2)%Q.



(** A store whose rows are as the handlers write them: a license is
    stored under its own key, the key has the generated shape and is its
    own normal form, a machine identifier is never the empty string, and a
    bound license has an activation time. *)
Definition well_formed (db : Db) : Prop :=
  forall (k : string) (l : License),
    licenses db !! k = Some l ->
    license_key l = k
    /\ key_shape k
    /\ normalize k = k
    /\ machine_id l <> Some ""
    /\ (is_Some (machine_id l) -> is_Some (activated_at l)).

(** The draws a call meets are draws of [Math.random]. *)
Definition fair_draws (c : Call) : Prop := unit_interval (Math_random (call_world c)).

(** * Properties *)

(** Unfold the monad and the statements of a handler. *)
Ltac run_monad :=
  unfold logActivation, insert_log, select_by_key, select_by_key_and_machine,
    update_machine, update_reset_machine, insert_license, select_all,
    toUpperCase_trim, try_catch, throw, mbind, M_bind, mret, M_ret;
  simpl.

(** ** The key generator *)

Lemma random_index_range (r : Q) :
  (0 <= r)%Q -> (r < 1)%Q ->
  0 <= Math_floor (r * inject_Z (Z.of_nat (String.length chars))) < 36.
Proof.
  intros H0 H1. unfold Math_floor. change (Z.of_nat (String.length chars)) with 36.
  split.
  - change 0 with (Qfloor (inject_Z 0)). apply Qfloor_resp_le.
    change (inject_Z 0) with (0 * inject_Z 36)%Q.
    apply Qmult_le_compat_r; [exact H0 | discriminate].
  - rewrite Zlt_Qlt. eapply Qle_lt_trans; [apply Qfloor_le |].
    change (inject_Z 36) with (1 * inject_Z 36)%Q at 2.
    apply Qmult_lt_compat_r; [reflexivity | exact H1].
Qed.

Lemma charAt_chars (i : Z) :
  0 <= i < 36 ->
  exists c : ascii, charAt chars i = String c "" /\ is_key_char c = true.
Proof.
  intros Hi.
  assert (Hall : forallb (fun n => match String.get n chars with
                                   | Some c => is_key_char c
                                   | None => false
                                   end) (seq 0 36) = true) by reflexivity.
  rewrite forallb_forall in Hall.
  specialize (Hall (Z.to_nat i)).
  unfold charAt. destruct (Z.ltb_spec i 0) as [Hneg | _]; [lia |].
  destruct (String.get (Z.to_nat i) chars) as [c |].
  - exists c. split; [reflexivity |]. apply Hall. apply in_seq. lia.
  - exfalso. assert (false = true) by (apply Hall; apply in_seq; lia). discriminate.
Qed.

Lemma append_nil (b : string) : "" +:+ b = b.
Proof. reflexivity. Qed.

Lemma append_cons (x : ascii) (a b : string) : String x a +:+ b = String x (a +:+ b).
Proof. reflexivity. Qed.

Lemma append_assoc (a b c : string) : (a +:+ b) +:+ c = a +:+ (b +:+ c).
Proof.
  induction a as [| x a IH]; [reflexivity |].
  rewrite !append_cons. now rewrite IH.
Qed.

Lemma append_empty_r (a : string) : a +:+ "" = a.
Proof.
  induction a as [| x a IH]; [reflexivity |].
  rewrite append_cons. now rewrite IH.
Qed.

Lemma segment_loop_step (random : RandomSource) (n pos : nat) (segment : string) :
  segment_loop (S n) random pos segment
  = segment_loop n random (S pos)
      (segment +:+ charAt chars
         (Math_floor (random pos * inject_Z (Z.of_nat (String.length chars))))).
Proof. reflexivity. Qed.

Lemma segments_loop_step (random : RandomSource) (n pos : nat) (segments : list string) :
  segments_loop (S n) random pos segments
  = segments_loop n random (snd (segment_loop 4 random pos ""))
      (segments ++ [fst (segment_loop 4 random pos "")]).
Proof.
  change (segments_loop (S n) random pos segments)
    with (let '(segment, pos') := segment_loop 4 random pos "" in
          segments_loop n random pos' (segments ++ [segment])).
  now destruct (segment_loop 4 random pos "").
Qed.

(** The inner loop appends [n] characters of the alphabet and takes [n]
    draws. *)
Lemma segment_loop_spec (random : RandomSource) (n pos : nat) (segment : string) :
  unit_interval random ->
  exists s : string,
    segment_loop n random pos segment = (segment +:+ s, (pos + n)%nat)
    /\ String.length s = n /\ all_key_chars s = true.
Proof.
  intros Hr. revert pos segment.
  induction n as [| n IH]; intros pos segment.
  - exists "". simpl. rewrite append_empty_r, Nat.add_0_r. auto.
  - rewrite segment_loop_step.
    destruct (charAt_chars _ (random_index_range _ (proj1 (Hr pos)) (proj2 (Hr pos))))
      as (c & Hc & Hk).
    rewrite Hc.
    destruct (IH (S pos) (segment +:+ String c "")) as (s & Hs & Hlen & Hall).
    exists (String c s). rewrite Hs. repeat split.
    + rewrite append_assoc, append_cons, append_nil. f_equal. lia.
    + simpl. now rewrite Hlen.
    + simpl. now rewrite Hk, Hall.
Qed.

(** The outer loop pushes [n] groups. *)
Lemma segments_loop_spec (random : RandomSource) (n pos : nat) (segments : list string) :
  unit_interval random ->
  exists gs : list string,
    fst (segments_loop n random pos segments) = segments ++ gs
    /\ length gs = n /\ Forall (fun g => is_group g = true) gs.
Proof.
  intros Hr. revert pos segments.
  induction n as [| n IH]; intros pos segments.
  - exists []. simpl. rewrite app_nil_r. auto.
  - rewrite segments_loop_step.
    destruct (segment_loop_spec random 4 pos "" Hr) as (g & Hg & Hlen & Hall).
    rewrite Hg, append_nil. simpl fst. simpl snd.
    destruct (IH (pos + 4)%nat (segments ++ [g])) as (gs & Hgs & Hn & Hfa).
    exists (g :: gs). rewrite Hgs. repeat split.
    + now rewrite <- app_assoc.
    + simpl. now rewrite Hn.
    + constructor; [| exact Hfa].
      unfold is_group. rewrite Hlen, Hall. reflexivity.
Qed.

(** C8: whatever [Math.random] draws from [0, 1), the generated key is the
    prefix [HASNA] followed by four hyphen-separated groups of four
    characters, each of the alphabet [A-Z0-9]. *)
Theorem generateLicenseKey_shape (random : RandomSource) :
  unit_interval random -> key_shape (generateLicenseKey random).
Proof.
  intros Hr. unfold generateLicenseKey, key_shape.
  destruct (segments_loop_spec random 4 0 [] Hr) as (gs & Hgs & Hlen & Hfa).
  rewrite Hgs. simpl.
  destruct gs as [| g1 [| g2 [| g3 [| g4 [| g5 gs]]]]]; try discriminate.
  exists g1, g2, g3, g4.
  inversion Hfa as [| ? ? H1 Hfa1]; subst.
  inversion Hfa1 as [| ? ? H2 Hfa2]; subst.
  inversion Hfa2 as [| ? ? H3 Hfa3]; subst.
  inversion Hfa3 as [| ? ? H4 _]; subst.
  repeat split; try assumption.
Qed.

Lemma generateLicenseKey_shape_witness :
  unit_interval (fun _ => 0%Q) /\ key_shape (generateLicenseKey (fun _ => 0%Q)).
Proof.
  assert (H : unit_interval (fun _ => 0%Q)).
  { intros i. split; [apply Qle_refl | reflexivity]. }
  split; [exact H | exact (generateLicenseKey_shape _ H)].
Defined.

Example generateLicenseKey_zero :
  generateLicenseKey (fun _ => 0%Q) = "HASNA-AAAA-AAAA-AAAA-AAAA".
Proof. reflexivity. Qed.

(** ** Running a handler *)

Lemma falsy_Some (s : string) : falsy (Some s) = false <-> s <> "".
Proof.
  unfold falsy. destruct (decide (s = "")) as [-> | Hne].
  - rewrite bool_decide_eq_true_2 by reflexivity. split; [discriminate | congruence].
  - rewrite bool_decide_eq_false_2 by exact Hne. split; auto.
Qed.


Lemma strict_ne_true (a b : option string) : strict_ne a b = true <-> a <> b.
Proof.
  unfold strict_ne. destruct (decide (a = b)) as [E | N].
  - rewrite bool_decide_eq_true_2 by exact E. split; [discriminate | congruence].
  - rewrite bool_decide_eq_false_2 by exact N. split; auto.
Qed.

Lemma strict_ne_false (a b : option string) : strict_ne a b = false <-> a = b.
Proof.
  unfold strict_ne. destruct (decide (a = b)) as [E | N].
  - rewrite bool_decide_eq_true_2 by exact E. split; auto.
  - rewrite bool_decide_eq_false_2 by exact N. split; [discriminate | congruence].
Qed.

(** What activate does with a validated request, branch by branch. *)
Lemma activate_validated (w : World) (req : Request) (db : Db) (raw m : string) :
  validated req raw m ->
  activate w req db =
  match licenses db !! normalize raw with
  | None =>
      (Returned (failure 404 "Clé de licence invalide"),
       with_log db (audit w req raw m false "Clé invalide"))
  | Some l =>
      if negb (is_active l) then
        (Returned (failure 403 "Cette licence a été désactivée"),
         with_log db (audit w req raw m false "Licence désactivée"))
      else if now w >? Date_of_DATE (expires_at l) then
        (Returned (expired_error l),
         with_log db (audit w req raw m false "Licence expirée"))
      else if truthy (machine_id l) && strict_ne (machine_id l) (Some m) then
        (Returned other_machine_error,
         with_log db (audit w req raw m false "Déjà activée sur autre machine"))
      else
        (Returned (mkResponse 200 true None (Some "Licence activée avec succès")
                     (ActivateData (client_name l) (expires_at l)
                        (daysRemaining (Date_of_DATE (expires_at l)) (now w)))),
         with_log
           (if falsy (machine_id l)
            then mkDb (alter (bind_machine (Some m) (now w)) (normalize raw) (licenses db))
                      (activation_logs db)
            else db)
           (audit w req raw m true "Activation réussie"))
  end.
Proof.
  intros (Hk & Hraw & Hm & Hmne).
  apply falsy_Some in Hraw. apply falsy_Some in Hmne.
  unfold activate. rewrite Hk, Hm, Hraw, Hmne. simpl orb. cbv iota.
  unfold normalize, with_log, audit, expired_error, other_machine_error.
  run_monad.
  destruct (licenses db !! trim (toUpperCase raw)) as [l |]; simpl; [| reflexivity].
  destruct (is_active l); simpl; [| reflexivity].
  destruct (now w >? Date_of_DATE (expires_at l)); [reflexivity |].
  destruct (truthy (machine_id l) && strict_ne (machine_id l) (Some m)); [reflexivity |].
  destruct (falsy (machine_id l)); simpl; reflexivity.
Qed.

Lemma alter_lookup_insert (f : License -> License) (k : string) (l : License)
    (m : gmap string License) :
  m !! k = Some l -> alter f k m = <[k := f l]> m.
Proof.
  intros H. apply map_eq. intros j.
  rewrite lookup_alter, lookup_insert.
  destruct (decide (k = j)) as [<- | Hne]; [now rewrite H | reflexivity].
Qed.

Lemma alter_lookup_None (f : License -> License) (k : string) (m : gmap string License) :
  m !! k = None -> alter f k m = m.
Proof.
  intros H. apply map_eq. intros j.
  rewrite lookup_alter.
  destruct (decide (k = j)) as [<- | Hne]; [now rewrite H | reflexivity].
Qed.

(** ** Activation: the decision table *)


(** ** Activation: binding a machine *)



(** ** Validation *)

Lemma validation_passes (req : Request) :
  falsy (body_license_key req) || falsy (body_machine_id req) = false ->
  exists raw m : string, validated req raw m.
Proof.
  intros H. apply orb_false_elim in H as [Hk Hm].
  destruct (body_license_key req) as [raw |] eqn:Eraw; [| discriminate].
  destruct (body_machine_id req) as [m |] eqn:Em; [| discriminate].
  exists raw, m. unfold validated. rewrite Eraw, Em.
  apply falsy_Some in Hk. apply falsy_Some in Hm. auto.
Qed.

Lemma activate_rejected (w : World) (req : Request) (db : Db) :
  falsy (body_license_key req) || falsy (body_machine_id req) = true ->
  activate w req db =
    (Returned (failure 400 "Clé de licence et identifiant machine requis"), db).
Proof. intros H. unfold activate. rewrite H. reflexivity. Qed.

(** ** Days remaining *)

Lemma date_before_midnight (t day : Z) :
  date_of_instant t < day -> t < Date_of_DATE day.
Proof.
  unfold date_of_instant, Date_of_DATE, MS_PER_DAY. intros H.
  change (1000 * 60 * 60 * 24) with 86400000 in *.
  pose proof (Z.div_mod t 86400000 ltac:(lia)) as Hdiv.
  pose proof (Z.mod_pos_bound t 86400000 ltac:(lia)) as Hmod.
  lia.
Qed.

Lemma date_after_midnight (t day : Z) :
  day <= date_of_instant t -> Date_of_DATE day <= t.
Proof.
  unfold date_of_instant, Date_of_DATE, MS_PER_DAY. intros H.
  change (1000 * 60 * 60 * 24) with 86400000 in *.
  pose proof (Z.div_mod t 86400000 ltac:(lia)) as Hdiv.
  pose proof (Z.mod_pos_bound t 86400000 ltac:(lia)) as Hmod.
  lia.
Qed.

(** [daysRemaining] is the ceiling of the quotient: the least number of
    whole days that covers the time left. *)
Lemma daysRemaining_ceiling (expiresAt today : Z) :
  (daysRemaining expiresAt today - 1) * MS_PER_DAY < expiresAt - today
  /\ expiresAt - today <= daysRemaining expiresAt today * MS_PER_DAY.
Proof.
  unfold daysRemaining, Math_ceil.
  set (a := expiresAt - today).
  assert (Hq : (inject_Z a / inject_Z MS_PER_DAY * inject_Z MS_PER_DAY == inject_Z a)%Q).
  { apply Qdiv_mult_l. discriminate. }
  set (q := (inject_Z a / inject_Z MS_PER_DAY)%Q) in *.
  assert (Hpos : (0 < inject_Z MS_PER_DAY)%Q) by reflexivity.
  split.
  - rewrite Zlt_Qlt, inject_Z_mult, <- Hq.
    apply Qmult_lt_compat_r; [exact Hpos | apply Qceiling_lt].
  - rewrite Zle_Qle, inject_Z_mult, <- Hq.
    apply Qmult_le_compat_r; [apply Qle_ceiling | apply Qlt_le_weak; exact Hpos].
Qed.

(** Counted from an instant to a midnight, the ceiling is the number of
    dates in between. *)
Lemma daysRemaining_dates (day today : Z) :
  daysRemaining (Date_of_DATE day) today = day - date_of_instant today.
Proof.
  pose proof (daysRemaining_ceiling (Date_of_DATE day) today) as [Hlo Hhi].
  set (d := daysRemaining (Date_of_DATE day) today) in *.
  pose proof (date_after_midnight today (date_of_instant today) ltac:(lia)) as Hge.
  pose proof (date_before_midnight today (date_of_instant today + 1) ltac:(lia)) as Hlt.
  unfold Date_of_DATE, MS_PER_DAY in *.
  change (1000 * 60 * 60 * 24) with 86400000 in *.
  lia.
Qed.

(** C9: activate always answers, and an answer of success (200) carries
    the license's [client_name] and [expires_at] and a [days_remaining]
    that is the ceiling of the time from now to the expiry instant, counted
    in days: the least integer [d] with [expiresAt - today <= d] days,
    which is also the number of dates from today's to [expires_at]. *)
Theorem activate_success_response (w : World) (req : Request) (db : Db) :
  exists (resp : Response) (db' : Db),
    activate w req db = (Returned resp, db')
    /\ (status resp = 200 ->
        exists (raw : string) (l : License) (d : Z),
          body_license_key req = Some raw
          /\ licenses db !! normalize raw = Some l
          /\ data resp = ActivateData (client_name l) (expires_at l) d
          /\ d = daysRemaining (Date_of_DATE (expires_at l)) (now w)
          /\ (d - 1) * MS_PER_DAY < Date_of_DATE (expires_at l) - now w
          /\ Date_of_DATE (expires_at l) - now w <= d * MS_PER_DAY
          /\ d = expires_at l - date_of_instant (now w)).
Proof.
  destruct (falsy (body_license_key req) || falsy (body_machine_id req)) eqn:Hval.
  - rewrite (activate_rejected w req db Hval).
    eexists _, _. split; [reflexivity |]. simpl. discriminate.
  - destruct (validation_passes req Hval) as (raw & m & Hv).
    rewrite (activate_validated w req db raw m Hv).
    destruct (licenses db !! normalize raw) as [l |] eqn:Hl.
    2: { eexists _, _. split; [reflexivity |]. simpl. discriminate. }
    destruct (is_active l); simpl negb; cbv iota.
    2: { eexists _, _. split; [reflexivity |]. simpl. discriminate. }
    destruct (now w >? Date_of_DATE (expires_at l)).
    { eexists _, _. split; [reflexivity |]. simpl. discriminate. }
    destruct (truthy (machine_id l) && strict_ne (machine_id l) (Some m)).
    { eexists _, _. split; [reflexivity |]. simpl. discriminate. }
    eexists _, _. split; [reflexivity |]. intros _.
    exists raw, l, (daysRemaining (Date_of_DATE (expires_at l)) (now w)).
    destruct Hv as (Hraw & _).
    pose proof (daysRemaining_ceiling (Date_of_DATE (expires_at l)) (now w)) as [Hlo Hhi].
    pose proof (daysRemaining_dates (expires_at l) (now w)) as Hdates.
    repeat split; assumption || reflexivity.
Qed.

(** ** The expiry boundary *)


Lemma verify_validated (w : World) (req : Request) (db : Db) (raw m : string) :
  validated req raw m ->
  verify w req db =
  match licenses db !! normalize raw with
  | Some l =>
      if decide (machine_id l = Some m) then
        (Returned (mkResponse 200 true
                     (Some (is_active l && (now w <=? Date_of_DATE (expires_at l))))
                     None
                     (VerifyData (client_name l) (expires_at l)
                        (daysRemaining (Date_of_DATE (expires_at l)) (now w))
                        (is_active l))), db)
      else
        (Returned (mkResponse 200 false (Some false)
                     (Some "Licence non trouvée ou machine non autorisée") NoData), db)
  | None =>
      (Returned (mkResponse 200 false (Some false)
                   (Some "Licence non trouvée ou machine non autorisée") NoData), db)
  end.
Proof.
  intros (Hk & Hraw & Hm & Hmne).
  apply falsy_Some in Hraw. apply falsy_Some in Hmne.
  unfold verify. rewrite Hk, Hm, Hraw, Hmne. simpl orb. cbv iota.
  unfold normalize. run_monad.
  destruct (licenses db !! trim (toUpperCase raw)) as [l |]; simpl; [| reflexivity].
  rewrite filter_cons, filter_nil.
  destruct (decide (machine_id l = Some m)) as [E | N].
  - rewrite decide_True by (split; [eexists; reflexivity | exact E]). reflexivity.
  - rewrite decide_False by (intros [_ E]; contradiction). reflexivity.
Qed.




(** ** Verification *)

Lemma verify_rejected (w : World) (req : Request) (db : Db) :
  falsy (body_license_key req) || falsy (body_machine_id req) = true ->
  verify w req db =
    (Returned (failure 400 "Clé de licence et identifiant machine requis"), db).
Proof. intros H. unfold verify. rewrite H. reflexivity. Qed.

(** C5: verify selects on the pair of key and machine.  When the license
    under the request's key is not bound to the request's machine, the
    answer is the one verify gives when no license has that key, so the
    two cases cannot be told apart; for a validated request it is the
    not-found answer with [valid] false. *)
Theorem verify_wrong_machine_as_unknown (w : World) (req : Request) (db : Db)
    (raw : string) (l : License) :
  body_license_key req = Some raw ->
  licenses db !! normalize raw = Some l ->
  machine_id l <> body_machine_id req ->
  fst (verify w req db) = fst (verify w req (without_license (normalize raw) db))
  /\ snd (verify w req db) = db
  /\ (forall m : string,
        validated req raw m ->
        verify w req db = (Returned not_found_or_not_authorized, db)).
Proof.
  intros Hraw Hl Hother.
  assert (Hcase : forall m, validated req raw m ->
            verify w req db = (Returned not_found_or_not_authorized, db)
            /\ verify w req (without_license (normalize raw) db)
               = (Returned not_found_or_not_authorized,
                  without_license (normalize raw) db)).
  { intros m Hv. rewrite !(verify_validated _ _ _ raw m Hv), Hl.
    destruct Hv as (_ & _ & Hm & _). rewrite Hm in Hother.
    rewrite decide_False by exact Hother.
    unfold without_license. simpl. rewrite lookup_delete_eq. auto. }
  destruct (falsy (body_license_key req) || falsy (body_machine_id req)) eqn:Hval.
  - rewrite !(verify_rejected _ _ _ Hval). repeat split.
    intros m Hv. destruct (Hcase m Hv) as [H _]. rewrite <- H.
    now rewrite (verify_rejected _ _ _ Hval).
  - destruct (validation_passes req Hval) as (raw' & m & Hv).
    assert (raw' = raw) as ->.
    { destruct Hv as (Hk & _). rewrite Hraw in Hk. now injection Hk. }
    destruct (Hcase m Hv) as [H1 H2]. rewrite H1, H2. repeat split.
Qed.

(** C6: verify is read-only.  Whatever the request, it answers and the
    store after it, licenses and audit log, is the store before it. *)
Theorem verify_read_only (w : World) (req : Request) (db : Db) :
  exists resp : Response, verify w req db = (Returned resp, db).
Proof.
  destruct (falsy (body_license_key req) || falsy (body_machine_id req)) eqn:Hval.
  - rewrite (verify_rejected _ _ _ Hval). eexists. reflexivity.
  - destruct (validation_passes req Hval) as (raw & m & Hv).
    rewrite (verify_validated _ _ _ raw m Hv).
    destruct (licenses db !! normalize raw) as [l |]; [| eexists; reflexivity].
    destruct (decide (machine_id l = Some m)); eexists; reflexivity.
Qed.

(** ** Administration *)

Lemma resetMachine_try_key (raw : string) (db : Db) :
  resetMachine_try (Some raw) db =
  match licenses db !! normalize raw with
  | Some l =>
      (Returned reset_done,
       mkDb (<[normalize raw := clear_machine l]> (licenses db)) (activation_logs db))
  | None => (Returned (failure 404 "Licence non trouvée"), db)
  end.
Proof.
  unfold resetMachine_try, normalize. run_monad.
  destruct (licenses db !! trim (toUpperCase raw)) as [l |] eqn:Hl; simpl.
  - now rewrite (alter_lookup_insert _ _ _ _ Hl).
  - rewrite (alter_lookup_None _ _ _ Hl). now destruct db.
Qed.

Lemma resetMachine_authorized (w : World) (req : Request) (db : Db) :
  body_admin_key req = ADMIN_KEY w ->
  resetMachine w req db =
    try_catch (resetMachine_try (body_license_key req))
              (fun _ => mret (failure 500 "Erreur serveur")) db.
Proof.
  intros H. unfold resetMachine.
  now rewrite (proj2 (strict_ne_false _ _) H).
Qed.


(** C10: a reset whose body has no [license_key] is not refused as
    invalid.  The [try] block throws a [TypeError] at [toUpperCase], and the
    authorized caller gets the generic 500 answer; the store is unchanged. *)
Theorem resetMachine_missing_key (w : World) (req : Request) (db : Db) :
  body_license_key req = None ->
  resetMachine_try (body_license_key req) db = (Thrown TypeError, db)
  /\ (exists resp : Response,
        resetMachine w req db = (Returned resp, db) /\ status resp <> 400)
  /\ (body_admin_key req = ADMIN_KEY w ->
      resetMachine w req db = (Returned (failure 500 "Erreur serveur"), db)).
Proof.
  intros Hk. rewrite Hk.
  assert (Hthrow : resetMachine_try None db = (Thrown TypeError, db)) by reflexivity.
  split; [exact Hthrow |].
  assert (Hauth : body_admin_key req = ADMIN_KEY w ->
            resetMachine w req db = (Returned (failure 500 "Erreur serveur"), db)).
  { intros H. rewrite (resetMachine_authorized w req db H), Hk.
    unfold try_catch. now rewrite Hthrow. }
  split; [| exact Hauth].
  destruct (decide (body_admin_key req = ADMIN_KEY w)) as [E | N].
  - rewrite (Hauth E). eexists. split; [reflexivity | discriminate].
  - unfold resetMachine. rewrite (proj2 (strict_ne_true _ _) N).
    eexists. split; [reflexivity | discriminate].
Qed.





(** ** The statements at concrete requests *)



Lemma activate_success_response_witness :
  let w := world_at (Date_of_DATE 19970 + 1) in
  let req := activation_request "hasna-ab12-cd34-ef56-gh78" "PC-001" in
  exists (resp : Response) (db' : Db),
    activate w req (db_of unbound_license) = (Returned resp, db')
    /\ status resp = 200
    /\ exists d : Z,
         data resp = ActivateData "Moulin Test" 20000 d
         /\ (d - 1) * MS_PER_DAY < Date_of_DATE 20000 - now w <= d * MS_PER_DAY.
Proof.
  cbv zeta.
  destruct (activate_success_response (world_at (Date_of_DATE 19970 + 1))
              (activation_request "hasna-ab12-cd34-ef56-gh78" "PC-001")
              (db_of unbound_license)) as (resp & db' & Hrun & Hok).
  exists resp, db'.
  assert (Hs : status resp = 200).
  { assert (He : status <$> (match fst (activate (world_at (Date_of_DATE 19970 + 1))
                                          (activation_request "hasna-ab12-cd34-ef56-gh78" "PC-001")
                                          (db_of unbound_license)) with
                             | Returned r => Some r
                             | Thrown _ => None
                             end) = Some 200) by reflexivity.
    rewrite Hrun in He. simpl in He. now injection He. }
  split; [exact Hrun |]. split; [exact Hs |].
  destruct (Hok Hs) as (raw & l & d & Hraw & Hl & Hd & _ & Hlo & Hhi & _).
  injection Hraw as <-.
  assert (l = unbound_license) as ->.
  { assert (Hl' : licenses (db_of unbound_license) !! normalize "hasna-ab12-cd34-ef56-gh78"
                  = Some unbound_license) by reflexivity.
    rewrite Hl' in Hl. now injection Hl. }
  exists d. split; [exact Hd |]. split; [exact Hlo | exact Hhi].
Defined.

Example activate_success_example :
  activate (world_at (Date_of_DATE 19970 + 1))
           (activation_request "hasna-ab12-cd34-ef56-gh78" "PC-001")
           (db_of unbound_license)
  = (Returned (mkResponse 200 true None (Some "Licence activée avec succès")
                 (ActivateData "Moulin Test" 20000 30)),
     mkDb {[ "HASNA-AB12-CD34-EF56-GH78" :=
               mkLicense "HASNA-AB12-CD34-EF56-GH78" "Moulin Test" None
                         (Some "PC-001") (Some (Date_of_DATE 19970 + 1))
                         20000 true 1690000000000 None ]}
          [mkLogEntry "hasna-ab12-cd34-ef56-gh78" "PC-001" (Some "203.0.113.7")
                      "ACTIVATE" true "Activation réussie" (Date_of_DATE 19970 + 1)]).
Proof. vm_compute. reflexivity. Qed.

Lemma verify_wrong_machine_as_unknown_witness :
  let w := world_at (Date_of_DATE 19970) in
  let req := activation_request "hasna-ab12-cd34-ef56-gh78" "PC-002" in
  machine_id bound_license <> body_machine_id req
  /\ verify w req (db_of bound_license)
     = (Returned not_found_or_not_authorized, db_of bound_license)
  /\ fst (verify w req (db_of bound_license))
     = fst (verify w req (mkDb ∅ [])).
Proof.
  assert (Hne : machine_id bound_license
                <> body_machine_id (activation_request "hasna-ab12-cd34-ef56-gh78" "PC-002"))
    by discriminate.
  pose proof (verify_wrong_machine_as_unknown (world_at (Date_of_DATE 19970))
                (activation_request "hasna-ab12-cd34-ef56-gh78" "PC-002")
                (db_of bound_license) "hasna-ab12-cd34-ef56-gh78" bound_license
                eq_refl eq_refl Hne) as (Hsame & _ & Hnf).
  split; [exact Hne |]. split.
  - apply (Hnf "PC-002"). repeat split; discriminate.
  - etransitivity; [exact Hsame |]. reflexivity.
Defined.


Lemma resetMachine_missing_key_witness :
  let w := world_at (Date_of_DATE 19970) in
  let req := reset_request (Some "s3cret") None in
  body_license_key req = None
  /\ resetMachine w req (db_of bound_license)
     = (Returned (failure 500 "Erreur serveur"), db_of bound_license).
Proof.
  split; [reflexivity |].
  exact (proj2 (proj2 (resetMachine_missing_key (world_at (Date_of_DATE 19970))
                         (reset_request (Some "s3cret") None)
                         (db_of bound_license) eq_refl)) eq_refl).
Defined.


(** The scenario of the specification: a license created for thirty days
    is activated on [PC-001], refused on [PC-002], reset, and then
    activated on [PC-002]. *)
Example create_activate_reset_scenario :
  let w := world_at (Date_of_DATE 19970) in
  let key := "HASNA-AAAA-AAAA-AAAA-AAAA" in
  let '(r0, db0) := create w (create_request (Some "s3cret") "Moulin Test" 20000)
                      (mkDb ∅ []) in
  let '(r1, db1) := activate w (activation_request key "PC-001") db0 in
  let '(r2, db2) := activate w (activation_request key "PC-002") db1 in
  let '(r3, db3) := resetMachine w (reset_request (Some "s3cret") (Some key)) db2 in
  let '(r4, db4) := activate w (activation_request key "PC-002") db3 in
  r0 = Returned (mkResponse 200 true None (Some "Licence créée avec succès")
                   (CreateData key (Some "Moulin Test") (Some 20000)))
  /\ r1 = Returned (mkResponse 200 true None (Some "Licence activée avec succès")
                      (ActivateData "Moulin Test" 20000 30))
  /\ r2 = Returned other_machine_error
  /\ r3 = Returned reset_done
  /\ r4 = Returned (mkResponse 200 true None (Some "Licence activée avec succès")
                      (ActivateData "Moulin Test" 20000 30))
  /\ machine_id <$> licenses db2 !! key = Some (Some "PC-001")
  /\ machine_id <$> licenses db4 !! key = Some (Some "PC-002")
  /\ length (activation_logs db4) = 3%nat.
Proof. vm_compute. repeat split; reflexivity. Qed.

(** * Further properties of the handlers *)

(** ** What one call does to the store *)

Lemma activate_store (w : World) (req : Request) (db : Db) :
  exists (resp : Response) (db' : Db),
    activate w req db = (Returned resp, db')
    /\ (licenses db' = licenses db
        \/ exists (raw m : string) (l : License),
             validated req raw m
             /\ licenses db !! normalize raw = Some l
             /\ falsy (machine_id l) = true
             /\ licenses db' = <[normalize raw := bind_machine (Some m) (now w) l]>
                                 (licenses db))
    /\ (falsy (body_license_key req) || falsy (body_machine_id req) = true ->
        db' = db)
    /\ (forall raw m : string,
          validated req raw m ->
          exists (ok : bool) (msg : string),
            activation_logs db' = activation_logs db ++ [audit w req raw m ok msg]
            /\ (ok = true <-> status resp = 200)).
Proof.
  destruct (falsy (body_license_key req) || falsy (body_machine_id req)) eqn:Hval.
  - rewrite (activate_rejected w req db Hval). eexists _, _.
    split; [reflexivity |]. split; [now left |]. split; [reflexivity |].
    intros raw m (Hk & Hraw & Hm & Hmne).
    apply falsy_Some in Hraw. apply falsy_Some in Hmne.
    rewrite Hk, Hm, Hraw, Hmne in Hval. discriminate.
  - destruct (validation_passes req Hval) as (raw & m & Hv).
    assert (Huniq : forall raw' m', validated req raw' m' -> raw' = raw /\ m' = m).
    { intros raw' m' (Hk' & _ & Hm' & _). destruct Hv as (Hk & _ & Hm & _).
      rewrite Hk in Hk'. rewrite Hm in Hm'. split; congruence. }
    rewrite (activate_validated w req db raw m Hv).
    destruct (licenses db !! normalize raw) as [l |] eqn:Hl.
    2: { eexists _, _. split; [reflexivity |]. split; [now left |].
         split; [discriminate |].
         intros raw' m' Hv'. destruct (Huniq _ _ Hv') as [-> ->].
         eexists false, _. split; [reflexivity |]. split; discriminate. }
    destruct (is_active l); simpl negb; cbv iota.
    2: { eexists _, _. split; [reflexivity |]. split; [now left |].
         split; [discriminate |].
         intros raw' m' Hv'. destruct (Huniq _ _ Hv') as [-> ->].
         eexists false, _. split; [reflexivity |]. split; discriminate. }
    destruct (now w >? Date_of_DATE (expires_at l)).
    { eexists _, _. split; [reflexivity |]. split; [now left |].
      split; [discriminate |].
      intros raw' m' Hv'. destruct (Huniq _ _ Hv') as [-> ->].
      eexists false, _. split; [reflexivity |]. split; discriminate. }
    destruct (truthy (machine_id l) && strict_ne (machine_id l) (Some m)).
    { eexists _, _. split; [reflexivity |]. split; [now left |].
      split; [discriminate |].
      intros raw' m' Hv'. destruct (Huniq _ _ Hv') as [-> ->].
      eexists false, _. split; [reflexivity |]. split; discriminate. }
    eexists _, _. split; [reflexivity |].
    split; [| split; [discriminate |]].
    + destruct (falsy (machine_id l)) eqn:Hf; [| now left].
      right. exists raw, m, l. simpl.
      rewrite (alter_lookup_insert _ _ _ _ Hl). auto.
    + intros raw' m' Hv'. destruct (Huniq _ _ Hv') as [-> ->].
      eexists true, _. split; [| split; reflexivity].
      destruct (falsy (machine_id l)); reflexivity.
Qed.

Lemma verify_store (w : World) (req : Request) (db : Db) :
  snd (verify w req db) = db.
Proof.
  destruct (falsy (body_license_key req) || falsy (body_machine_id req)) eqn:Hval.
  - now rewrite (verify_rejected _ _ _ Hval).
  - destruct (validation_passes req Hval) as (raw & m & Hv).
    rewrite (verify_validated _ _ _ raw m Hv).
    destruct (licenses db !! normalize raw) as [l |]; [| reflexivity].
    now destruct (decide (machine_id l = Some m)).
Qed.

Lemma list_licenses_store (w : World) (req : Request) (db : Db) :
  snd (list_licenses w req db) = db.
Proof.
  unfold list_licenses. now destruct (strict_ne _ _).
Qed.

(** What create does, case by case. *)
Lemma create_cases (w : World) (req : Request) (db : Db) :
  create w req db =
  if strict_ne (body_admin_key req) (ADMIN_KEY w) then (Returned unauthorized, db)
  else if falsy (body_client_name req)
          || negb (bool_decide (is_Some (body_expires_at req))) then
    (Returned (failure 400 "Nom du client et date d'expiration requis"), db)
  else
    match body_client_name req, body_expires_at req,
          licenses db !! generateLicenseKey (Math_random w) with
    | Some n, Some e, None =>
        (Returned (mkResponse 200 true None (Some "Licence créée avec succès")
                     (CreateData (generateLicenseKey (Math_random w))
                                 (body_client_name req) (body_expires_at req))),
         mkDb (<[generateLicenseKey (Math_random w) :=
                   mkLicense (generateLicenseKey (Math_random w)) n
                             (body_client_email req) None None e true (now w)
                             (body_notes req)]> (licenses db))
              (activation_logs db))
    | _, _, _ =>
        (Returned (failure 500 "Erreur lors de la création de la licence"), db)
    end.
Proof.
  unfold create, unauthorized.
  destruct (strict_ne _ _); [reflexivity |].
  destruct (falsy _ || _); [reflexivity |].
  unfold try_catch, insert_license, mbind, M_bind, mret, M_ret.
  destruct (body_client_name req), (body_expires_at req),
    (licenses db !! generateLicenseKey (Math_random w)); reflexivity.
Qed.

Lemma resetMachine_cases (w : World) (req : Request) (db : Db) :
  resetMachine w req db =
  if strict_ne (body_admin_key req) (ADMIN_KEY w) then (Returned unauthorized, db)
  else
    match body_license_key req with
    | None => (Returned (failure 500 "Erreur serveur"), db)
    | Some raw =>
        match licenses db !! normalize raw with
        | Some l =>
            (Returned reset_done,
             mkDb (<[normalize raw := clear_machine l]> (licenses db))
                  (activation_logs db))
        | None => (Returned (failure 404 "Licence non trouvée"), db)
        end
    end.
Proof.
  unfold resetMachine, unauthorized.
  destruct (strict_ne _ _); [reflexivity |].
  unfold try_catch.
  destruct (body_license_key req) as [raw |]; [| reflexivity].
  rewrite resetMachine_try_key.
  now destruct (licenses db !! normalize raw).
Qed.

(** ** Creation *)



(** X2: an authorized create that lacks the client name or the expiry
    date answers 400, and one whose generated key is already a license's
    answers 500: in both cases licenses and audit log are unchanged (the
    existing license keeps its row). *)
Theorem create_refused_unchanged (w : World) (req : Request) (db : Db) :
  body_admin_key req = ADMIN_KEY w ->
  (falsy (body_client_name req) = true \/ body_expires_at req = None ->
   create w req db =
     (Returned (failure 400 "Nom du client et date d'expiration requis"), db))
  /\ (falsy (body_client_name req) = false ->
      is_Some (body_expires_at req) ->
      is_Some (licenses db !! generateLicenseKey (Math_random w)) ->
      create w req db =
        (Returned (failure 500 "Erreur lors de la création de la licence"), db)).
Proof.
  intros Hadmin. rewrite create_cases.
  rewrite (proj2 (strict_ne_false _ _) Hadmin).
  split.
  - intros [Hn | He].
    + now rewrite Hn.
    + rewrite He. rewrite bool_decide_eq_false_2 by (intros [x Hx]; discriminate).
      now rewrite orb_true_r.
  - intros Hn [e He] [l Hl]. rewrite Hn, He, Hl.
    rewrite bool_decide_eq_true_2 by (eexists; reflexivity).
    simpl. now destruct (body_client_name req).
Qed.

Lemma create_refused_unchanged_witness :
  let w := world_at (Date_of_DATE 19970) in
  let taken := mkLicense "HASNA-AAAA-AAAA-AAAA-AAAA" "Minoterie" None None None
                         20100 true 0 None in
  create w (create_request (Some "s3cret") "Moulin Test" 20000) (db_of taken)
  = (Returned (failure 500 "Erreur lors de la création de la licence"), db_of taken).
Proof.
  refine (proj2 (create_refused_unchanged (world_at (Date_of_DATE 19970))
                   (create_request (Some "s3cret") "Moulin Test" 20000) _ eq_refl)
            eq_refl _ _).
  - eexists. reflexivity.
  - eexists. reflexivity.
Defined.

(** ** Invariants of the store under every sequence of calls *)

Lemma same_terms_refl (l : License) : same_terms l l.
Proof. repeat split. Qed.

Lemma same_terms_trans (a b c : License) :
  same_terms a b -> same_terms b c -> same_terms a c.
Proof.
  unfold same_terms. intros (?&?&?&?&?&?&?) (?&?&?&?&?&?&?).
  repeat split; congruence.
Qed.

(** One call keeps every license, and changes at most its [machine_id]
    and [activated_at]. *)
Lemma serve_keeps_license (db : Db) (c : Call) (k : string) (l : License) :
  licenses db !! k = Some l ->
  exists l' : License, licenses (serve db c) !! k = Some l' /\ same_terms l l'.
Proof.
  intros Hl. unfold serve.
  destruct c as [route w req]. simpl. destruct route; simpl.
  - destruct (activate_store w req db) as (resp & db' & Hrun & Hlic & _).
    rewrite Hrun. simpl.
    destruct Hlic as [-> | (raw & m & l0 & _ & Hl0 & _ & ->)].
    + exists l. split; [exact Hl | apply same_terms_refl].
    + destruct (decide (normalize raw = k)) as [<- | Hne].
      * rewrite Hl0 in Hl. injection Hl as ->.
        eexists. split; [apply lookup_insert_eq |]. repeat split.
      * exists l. rewrite lookup_insert_ne by exact Hne.
        split; [exact Hl | apply same_terms_refl].
  - rewrite verify_store. exists l. split; [exact Hl | apply same_terms_refl].
  - rewrite create_cases.
    destruct (strict_ne _ _);
      [exists l; split; [exact Hl | apply same_terms_refl] |].
    destruct (falsy _ || _);
      [exists l; split; [exact Hl | apply same_terms_refl] |].
    destruct (body_client_name req), (body_expires_at req),
      (licenses db !! generateLicenseKey (Math_random w)) eqn:Hkey;
      try (exists l; split; [exact Hl | apply same_terms_refl]).
    simpl. exists l. split; [| apply same_terms_refl].
    rewrite lookup_insert_ne; [exact Hl |]. intros <-. congruence.
  - rewrite list_licenses_store. exists l. split; [exact Hl | apply same_terms_refl].
  - rewrite resetMachine_cases.
    destruct (strict_ne _ _);
      [exists l; split; [exact Hl | apply same_terms_refl] |].
    destruct (body_license_key req) as [raw |];
      [| exists l; split; [exact Hl | apply same_terms_refl]].
    destruct (licenses db !! normalize raw) as [l0 |] eqn:Hl0;
      [| exists l; split; [exact Hl | apply same_terms_refl]].
    simpl. destruct (decide (normalize raw = k)) as [<- | Hne].
    + rewrite Hl0 in Hl. injection Hl as ->.
      eexists. split; [apply lookup_insert_eq |]. repeat split.
    + exists l. rewrite lookup_insert_ne by exact Hne.
      split; [exact Hl | apply same_terms_refl].
Qed.

(** X3: whatever requests the server serves, in whatever order, a
    license once stored stays stored under its key, and its client name and
    e-mail, expiry date, active flag, creation time and notes never change:
    no handler deletes, renews, deactivates or renames a license. *)
Theorem license_terms_are_permanent (calls : list Call) (db : Db) (k : string)
    (l : License) :
  licenses db !! k = Some l ->
  exists l' : License,
    licenses (serve_all calls db) !! k = Some l' /\ same_terms l l'.
Proof.
  revert db l. unfold serve_all.
  induction calls as [| c calls IH]; intros db l Hl; simpl.
  - exists l. split; [exact Hl | apply same_terms_refl].
  - destruct (serve_keeps_license db c k l Hl) as (l1 & Hl1 & Hs1).
    destruct (IH (serve db c) l1 Hl1) as (l2 & Hl2 & Hs2).
    exists l2. split; [exact Hl2 | exact (same_terms_trans _ _ _ Hs1 Hs2)].
Qed.

Lemma license_terms_are_permanent_witness :
  exists l' : License,
    licenses (serve_all
                [mkCall PostLicenseActivate (world_at (Date_of_DATE 19970))
                        (activation_request "hasna-ab12-cd34-ef56-gh78" "PC-001");
                 mkCall PostAdminLicenseResetMachine (world_at (Date_of_DATE 19971))
                        (reset_request (Some "s3cret") (Some "HASNA-AB12-CD34-EF56-GH78"));
                 mkCall PostAdminLicenseCreate (world_at (Date_of_DATE 19972))
                        (create_request (Some "s3cret") "Minoterie" 20100)]
                (db_of unbound_license))
      !! "HASNA-AB12-CD34-EF56-GH78" = Some l'
    /\ same_terms unbound_license l'.
Proof.
  exact (license_terms_are_permanent _ (db_of unbound_license)
           "HASNA-AB12-CD34-EF56-GH78" unbound_license eq_refl).
Defined.






(** ** Generated keys are their own normal form *)

Lemma plain_char_fixed (c : ascii) :
  is_plain_char c = true -> upper_ascii c = c /\ is_white c = false.
Proof.
  intros H.
  destruct c as [b0 b1 b2 b3 b4 b5 b6 b7].
  destruct b0, b1, b2, b3, b4, b5, b6, b7;
    first [ split; reflexivity | vm_compute in H; discriminate H ].
Qed.

Lemma toUpperCase_plain (s : string) : all_plain s = true -> toUpperCase s = s.
Proof.
  induction s as [| c s IH]; [reflexivity |]. simpl.
  intros H. apply andb_true_iff in H as [Hc Hs].
  destruct (plain_char_fixed c Hc) as [-> _]. now rewrite IH.
Qed.

Lemma trimEnd_plain (s : string) : all_plain s = true -> trimEnd s = s.
Proof.
  induction s as [| c s IH]; [reflexivity |]. simpl.
  intros H. apply andb_true_iff in H as [Hc Hs].
  rewrite (IH Hs). destruct (plain_char_fixed c Hc) as [_ ->].
  now destruct s.
Qed.

Lemma trim_plain (s : string) : all_plain s = true -> trim s = s.
Proof.
  intros H. unfold trim.
  assert (Hs : trimStart s = s).
  { destruct s as [| c s]; [reflexivity |]. simpl in *.
    apply andb_true_iff in H as [Hc _].
    now destruct (plain_char_fixed c Hc) as [_ ->]. }
  rewrite Hs. now apply trimEnd_plain.
Qed.

Lemma all_plain_append (a b : string) :
  all_plain (a +:+ b) = all_plain a && all_plain b.
Proof.
  induction a as [| x a IH]; [reflexivity |].
  rewrite append_cons. simpl. rewrite IH. now rewrite andb_assoc.
Qed.

Lemma group_is_plain (g : string) : is_group g = true -> all_plain g = true.
Proof.
  unfold is_group. intros H. apply andb_true_iff in H as [_ H].
  induction g as [| c g IH]; [reflexivity |]. simpl in *.
  apply andb_true_iff in H as [Hc Hg].
  unfold is_plain_char. rewrite Hc. simpl. now apply IH.
Qed.

Lemma length_append (a b : string) :
  String.length (a +:+ b) = (String.length a + String.length b)%nat.
Proof.
  induction a as [| x a IH]; [reflexivity |].
  rewrite append_cons. simpl. now rewrite IH.
Qed.

(** The groups of a generated key. *)
Lemma generated_key_groups (random : RandomSource) :
  unit_interval random ->
  exists g1 g2 g3 g4 : string,
    generateLicenseKey random
    = "HASNA-" +:+ g1 +:+ "-" +:+ g2 +:+ "-" +:+ g3 +:+ "-" +:+ g4
    /\ is_group g1 = true /\ is_group g2 = true
    /\ is_group g3 = true /\ is_group g4 = true.
Proof.
  intros Hr. unfold generateLicenseKey.
  destruct (segments_loop_spec random 4 0 [] Hr) as (gs & Hgs & Hlen & Hfa).
  rewrite Hgs. simpl.
  destruct gs as [| g1 [| g2 [| g3 [| g4 [| g5 gs]]]]]; try discriminate.
  exists g1, g2, g3, g4.
  inversion Hfa as [| ? ? H1 Hfa1]; subst.
  inversion Hfa1 as [| ? ? H2 Hfa2]; subst.
  inversion Hfa2 as [| ? ? H3 Hfa3]; subst.
  inversion Hfa3 as [| ? ? H4 _]; subst.
  repeat split; assumption.
Qed.

Lemma generated_key_plain (random : RandomSource) :
  unit_interval random -> all_plain (generateLicenseKey random) = true.
Proof.
  intros Hr.
  destruct (generated_key_groups random Hr) as (g1 & g2 & g3 & g4 & -> & H1 & H2 & H3 & H4).
  rewrite !all_plain_append.
  rewrite (group_is_plain _ H1), (group_is_plain _ H2),
    (group_is_plain _ H3), (group_is_plain _ H4).
  reflexivity.
Qed.

Lemma generated_key_normal_form (random : RandomSource) :
  unit_interval random ->
  normalize (generateLicenseKey random) = generateLicenseKey random.
Proof.
  intros Hr. pose proof (generated_key_plain random Hr) as Hp.
  unfold normalize. rewrite (toUpperCase_plain _ Hp). now apply trim_plain.
Qed.


(** X6: a generated key is unchanged by [toUpperCase().trim()], the
    normalization every lookup applies; it has 25 characters.  So the key
    create hands out is, as it stands, the key its license is stored and
    found under. *)
Theorem generated_key_is_normal (random : RandomSource) :
  unit_interval random ->
  normalize (generateLicenseKey random) = generateLicenseKey random
  /\ String.length (generateLicenseKey random) = 25%nat.
Proof.
  intros Hr. split.
  - now apply generated_key_normal_form.
  - destruct (generated_key_groups random Hr)
      as (g1 & g2 & g3 & g4 & -> & H1 & H2 & H3 & H4).
    unfold is_group in *.
    apply andb_true_iff in H1 as [H1 _]. apply andb_true_iff in H2 as [H2 _].
    apply andb_true_iff in H3 as [H3 _]. apply andb_true_iff in H4 as [H4 _].
    apply Nat.eqb_eq in H1, H2, H3, H4.
    rewrite !length_append, H1, H2, H3, H4. reflexivity.
Qed.

Lemma alternating_draws_unit_interval : unit_interval alternating_draws.
Proof.
  intros i. unfold alternating_draws.
  destruct (Nat.even i); split; reflexivity || discriminate.
Qed.

Lemma generated_key_is_normal_witness :
  unit_interval alternating_draws
  /\ generateLicenseKey alternating_draws = "HASNA-ASAS-ASAS-ASAS-ASAS"
  /\ normalize (generateLicenseKey alternating_draws)
     = generateLicenseKey alternating_draws.
Proof.
  split; [exact alternating_draws_unit_interval |].
  split; [reflexivity |].
  exact (proj1 (generated_key_is_normal _ alternating_draws_unit_interval)).
Defined.

(** ** How the handlers compose *)





(** X9: activate, then verify.  After an activation that answered 200,
    verify with the same key (in any spelling with the same normal form)
    and the same machine finds the license: it answers success, with
    [valid] true exactly while now is not after the expiry midnight, and
    changes nothing. *)
Theorem activate_then_verify (w w2 : World) (req req2 : Request) (db db1 : Db)
    (raw raw2 m : string) (resp : Response) :
  validated req raw m ->
  validated req2 raw2 m ->
  normalize raw2 = normalize raw ->
  activate w req db = (Returned resp, db1) ->
  status resp = 200 ->
  exists l : License,
    licenses db !! normalize raw = Some l
    /\ is_active l = true
    /\ verify w2 req2 db1 =
         (Returned (mkResponse 200 true
                      (Some (now w2 <=? Date_of_DATE (expires_at l)))
                      None
                      (VerifyData (client_name l) (expires_at l)
                         (daysRemaining (Date_of_DATE (expires_at l)) (now w2))
                         true)), db1).
Proof.
  intros Hv Hv2 Hnorm Hrun Hok.
  rewrite (activate_validated w req db raw m Hv) in Hrun.
  destruct (licenses db !! normalize raw) as [l |] eqn:Hl.
  2: { injection Hrun as <- _. discriminate Hok. }
  destruct (is_active l) eqn:Hact; simpl negb in Hrun; cbv iota in Hrun.
  2: { injection Hrun as <- _. discriminate Hok. }
  destruct (now w >? Date_of_DATE (expires_at l)).
  { injection Hrun as <- _. discriminate Hok. }
  destruct (truthy (machine_id l) && strict_ne (machine_id l) (Some m)) eqn:Hother.
  { injection Hrun as <- _. discriminate Hok. }
  injection Hrun as _ <-.
  exists l. split; [reflexivity |]. split; [exact Hact |].
  rewrite (verify_validated w2 req2 _ raw2 m Hv2), Hnorm.
  destruct (falsy (machine_id l)) eqn:Hf; simpl.
  - rewrite lookup_alter_eq, Hl. simpl.
    rewrite decide_True by reflexivity. now rewrite Hact.
  - rewrite Hl. unfold truthy in Hother. rewrite Hf in Hother. simpl in Hother.
    apply strict_ne_false in Hother.
    rewrite decide_True by exact Hother. now rewrite Hact.
Qed.

Lemma activate_then_verify_witness :
  exists l : License,
    licenses (db_of unbound_license) !! normalize " hasna-ab12-cd34-ef56-gh78"
    = Some l
    /\ is_active l = true
    /\ verify (world_at (Date_of_DATE 19980))
              (activation_request "HASNA-AB12-CD34-EF56-GH78" "PC-001")
              (snd (activate (world_at (Date_of_DATE 19970))
                      (activation_request " hasna-ab12-cd34-ef56-gh78" "PC-001")
                      (db_of unbound_license)))
       = (Returned (mkResponse 200 true
                      (Some (Date_of_DATE 19980 <=? Date_of_DATE (expires_at l)))
                      None
                      (VerifyData (client_name l) (expires_at l)
                         (daysRemaining (Date_of_DATE (expires_at l))
                                        (Date_of_DATE 19980))
                         true)),
          snd (activate (world_at (Date_of_DATE 19970))
                 (activation_request " hasna-ab12-cd34-ef56-gh78" "PC-001")
                 (db_of unbound_license))).
Proof.
  refine (activate_then_verify
            (world_at (Date_of_DATE 19970)) (world_at (Date_of_DATE 19980))
            (activation_request " hasna-ab12-cd34-ef56-gh78" "PC-001")
            (activation_request "HASNA-AB12-CD34-EF56-GH78" "PC-001")
            (db_of unbound_license) _
            " hasna-ab12-cd34-ef56-gh78" "HASNA-AB12-CD34-EF56-GH78" "PC-001"
            (mkResponse 200 true None (Some "Licence activée avec succès")
               (ActivateData "Moulin Test" 20000 30))
            _ _ _ _ _).
  - repeat split; discriminate.
  - repeat split; discriminate.
  - reflexivity.
  - vm_compute. reflexivity.
  - reflexivity.
Defined.



(** X11: days remaining and expiry agree.  For a license found by verify
    the reported [days_remaining] is positive exactly when now is before
    the expiry midnight and is zero or negative from that midnight on; and
    an activation that answers 200 never reports a negative number. *)
Theorem days_remaining_sign (w : World) (req : Request) (db : Db) (raw m : string)
    (l : License) :
  validated req raw m ->
  licenses db !! normalize raw = Some l ->
  (machine_id l = Some m ->
   exists (v : bool) (d : Z),
     verify w req db =
       (Returned (mkResponse 200 true (Some v) None
                    (VerifyData (client_name l) (expires_at l) d (is_active l))), db)
     /\ (0 < d <-> now w < Date_of_DATE (expires_at l)))
  /\ (forall (resp : Response) (db' : Db),
        activate w req db = (Returned resp, db') ->
        status resp = 200 ->
        exists d : Z,
          data resp = ActivateData (client_name l) (expires_at l) d /\ 0 <= d).
Proof.
  intros Hv Hl.
  pose proof (daysRemaining_ceiling (Date_of_DATE (expires_at l)) (now w)) as [Hlo Hhi].
  assert (Hday : 0 < MS_PER_DAY) by reflexivity.
  split.
  - intros Hm. rewrite (verify_validated w req db raw m Hv), Hl.
    rewrite decide_True by exact Hm.
    eexists _, _. split; [reflexivity |]. nia.
  - intros resp db' Hrun Hok.
    rewrite (activate_validated w req db raw m Hv), Hl in Hrun.
    destruct (is_active l); simpl negb in Hrun; cbv iota in Hrun.
    2: { injection Hrun as <- _. discriminate Hok. }
    destruct (Z.gtb_spec (now w) (Date_of_DATE (expires_at l))) as [Hgt | Hle].
    { injection Hrun as <- _. discriminate Hok. }
    destruct (truthy (machine_id l) && strict_ne (machine_id l) (Some m)).
    { injection Hrun as <- _. discriminate Hok. }
    injection Hrun as <- _. eexists. split; [reflexivity |]. nia.
Qed.

Lemma days_remaining_sign_witness :
  exists (v : bool) (d : Z),
    verify (world_at (Date_of_DATE 20003 + 7))
           (activation_request "hasna-ab12-cd34-ef56-gh78" "PC-001")
           (db_of bound_license) =
      (Returned (mkResponse 200 true (Some v) None
                   (VerifyData "Moulin Test" 20000 d true)), db_of bound_license)
    /\ (0 < d <-> Date_of_DATE 20003 + 7 < Date_of_DATE 20000).
Proof.
  refine (proj1 (days_remaining_sign (world_at (Date_of_DATE 20003 + 7))
                   (activation_request "hasna-ab12-cd34-ef56-gh78" "PC-001")
                   (db_of bound_license) "hasna-ab12-cd34-ef56-gh78" "PC-001"
                   bound_license _ eq_refl) eq_refl).
  repeat split; discriminate.
Defined.

(** ** Listing *)

Lemma newer_first_total (a b : License) : newer_first a b \/ newer_first b a.
Proof. unfold newer_first. lia. Qed.

Lemma newer_first_trans (a b c : License) :
  newer_first a b -> newer_first b c -> newer_first a c.
Proof. unfold newer_first. lia. Qed.

(** X12: an authorized list answers with every stored license exactly
    once, newest first: the rows are a permutation of the table, each row
    was created no earlier than all the rows after it, and the store is
    unchanged. *)
Theorem list_licenses_newest_first (w : World) (req : Request) (db : Db) :
  header_x_admin_key req = ADMIN_KEY w ->
  exists rows : list License,
    list_licenses w req db =
      (Returned (mkResponse 200 true None None (ListData rows)), db)
    /\ rows ≡ₚ (snd <$> map_to_list (licenses db))
    /\ length rows = size (licenses db)
    /\ (forall l : License,
          l ∈ rows <-> exists k : string, licenses db !! k = Some l)
    /\ StronglySorted newer_first rows.
Proof.
  intros Hadmin. unfold list_licenses.
  rewrite (proj2 (strict_ne_false _ _) Hadmin).
  unfold try_catch, select_all, mbind, M_bind, mret, M_ret.
  set (rows := merge_sort newer_first (snd <$> map_to_list (licenses db))).
  assert (Hperm : rows ≡ₚ (snd <$> map_to_list (licenses db)))
    by apply merge_sort_Permutation.
  exists rows. split; [reflexivity |]. split; [exact Hperm |].
  split; [| split].
  - rewrite Hperm, length_fmap. apply length_map_to_list.
  - intros l. rewrite Hperm, list_elem_of_fmap. split.
    + intros ([k l'] & -> & Hin). exists k. now apply elem_of_map_to_list.
    + intros (k & Hk). exists (k, l). split; [reflexivity |].
      now apply elem_of_map_to_list.
  - apply (@StronglySorted_merge_sort _ newer_first _).
    + intros a b c. apply newer_first_trans.
    + intros a b. apply newer_first_total.
Qed.

Lemma list_licenses_newest_first_witness :
  let older := mkLicense "HASNA-0000-0000-0000-0001" "Minoterie" None None None
                         20100 true 1680000000000 None in
  let db := mkDb (<["HASNA-0000-0000-0000-0001" := older]>
                    (licenses (db_of bound_license))) [] in
  list_licenses (world_at (Date_of_DATE 19970))
                (mkRequest None None None None None None None None
                           (Some "s3cret") None) db
  = (Returned (mkResponse 200 true None None (ListData [bound_license; older])), db).
Proof.
  cbv zeta.
  destruct (list_licenses_newest_first (world_at (Date_of_DATE 19970))
              (mkRequest None None None None None None None None
                         (Some "s3cret") None)
              (mkDb (<["HASNA-0000-0000-0000-0001" :=
                         mkLicense "HASNA-0000-0000-0000-0001" "Minoterie" None None None
                                   20100 true 1680000000000 None]>
                       (licenses (db_of bound_license))) [])
              eq_refl) as (rows & Hrun & _).
  rewrite Hrun. f_equal. f_equal. f_equal.
  assert (Hrows : match fst (list_licenses (world_at (Date_of_DATE 19970))
              (mkRequest None None None None None None None None
                         (Some "s3cret") None)
              (mkDb (<["HASNA-0000-0000-0000-0001" :=
                         mkLicense "HASNA-0000-0000-0000-0001" "Minoterie" None None None
                                   20100 true 1680000000000 None]>
                       (licenses (db_of bound_license))) [])) with
                  | Returned r => data r
                  | Thrown _ => NoData
                  end
                  = ListData [bound_license;
                              mkLicense "HASNA-0000-0000-0000-0001" "Minoterie" None None
                                        None 20100 true 1680000000000 None])
    by (vm_compute; reflexivity).
  rewrite Hrun in Hrows. simpl in Hrows. now injection Hrows.
Defined.

(** ** Resetting twice *)

(** X13: reset-machine is idempotent.  An authorized reset of a license
    that is already unbound, for instance right after another reset,
    answers 200 again and leaves the store exactly as it is. *)
Theorem resetMachine_idempotent (w w2 : World) (req req2 : Request) (db : Db)
    (raw raw2 : string) (l : License) :
  body_admin_key req = ADMIN_KEY w ->
  body_admin_key req2 = ADMIN_KEY w2 ->
  body_license_key req = Some raw ->
  body_license_key req2 = Some raw2 ->
  normalize raw2 = normalize raw ->
  licenses db !! normalize raw = Some l ->
  exists db1 : Db,
    resetMachine w req db = (Returned reset_done, db1)
    /\ resetMachine w2 req2 db1 = (Returned reset_done, db1)
    /\ (machine_id l = None -> db1 = db).
Proof.
  intros Ha Ha2 Hraw Hraw2 Hnorm Hl.
  rewrite (resetMachine_cases w req db).
  rewrite (proj2 (strict_ne_false _ _) Ha), Hraw, Hl.
  eexists. split; [reflexivity |].
  split.
  - rewrite resetMachine_cases.
    rewrite (proj2 (strict_ne_false _ _) Ha2), Hraw2, Hnorm. simpl.
    rewrite lookup_insert_eq. simpl. f_equal. f_equal.
    now rewrite insert_insert_eq.
  - intros Hm. destruct db as [lic logs]. simpl in *. f_equal.
    apply insert_id. rewrite Hl. f_equal.
    destruct l; simpl in *. now subst.
Qed.

Lemma resetMachine_idempotent_witness :
  exists db1 : Db,
    resetMachine (world_at (Date_of_DATE 19970))
                 (reset_request (Some "s3cret") (Some "hasna-ab12-cd34-ef56-gh78"))
                 (db_of bound_license) = (Returned reset_done, db1)
    /\ resetMachine (world_at (Date_of_DATE 19971))
                    (reset_request (Some "s3cret") (Some "HASNA-AB12-CD34-EF56-GH78"))
                    db1 = (Returned reset_done, db1).
Proof.
  destruct (resetMachine_idempotent
              (world_at (Date_of_DATE 19970)) (world_at (Date_of_DATE 19971))
              (reset_request (Some "s3cret") (Some "hasna-ab12-cd34-ef56-gh78"))
              (reset_request (Some "s3cret") (Some "HASNA-AB12-CD34-EF56-GH78"))
              (db_of bound_license)
              "hasna-ab12-cd34-ef56-gh78" "HASNA-AB12-CD34-EF56-GH78" bound_license
              eq_refl eq_refl eq_refl eq_refl eq_refl eq_refl)
    as (db1 & H1 & H2 & _).
  exists db1. split; assumption.
Defined.

(** ** Keys and draws *)










(** ** The normal form of a key *)
















(** X16: the handlers see a key only through its normal form.  Two
    validated requests from the same machine whose keys have the same
    normal form get the same answer from activate and leave the same
    licenses, and get the same answer from verify; two authorized resets
    whose keys have the same normal form have the same effect.  Only the
    audit entry keeps the spelling. *)
Theorem handlers_use_the_normal_form (w : World) (req1 req2 : Request) (db : Db)
    (raw1 raw2 : string) :
  body_license_key req1 = Some raw1 ->
  body_license_key req2 = Some raw2 ->
  normalize raw1 = normalize raw2 ->
  (forall m : string,
     validated req1 raw1 m -> validated req2 raw2 m ->
     fst (activate w req1 db) = fst (activate w req2 db)
     /\ licenses (snd (activate w req1 db)) = licenses (snd (activate w req2 db))
     /\ verify w req1 db = verify w req2 db)
  /\ (body_admin_key req1 = body_admin_key req2 ->
      resetMachine w req1 db = resetMachine w req2 db).
Proof.
  intros H1 H2 Hn. split.
  - intros m V1 V2.
    rewrite (activate_validated w req1 db raw1 m V1),
      (activate_validated w req2 db raw2 m V2),
      (verify_validated w req1 db raw1 m V1),
      (verify_validated w req2 db raw2 m V2), Hn.
    destruct (licenses db !! normalize raw2) as [l |]; [| auto].
    destruct (negb (is_active l)); [auto |].
    destruct (now w >? Date_of_DATE (expires_at l)); [auto |].
    destruct (truthy (machine_id l) && strict_ne (machine_id l) (Some m)); [auto |].
    destruct (falsy (machine_id l)); auto.
  - intros Ha. rewrite !resetMachine_cases, Ha, H1, H2, Hn. reflexivity.
Qed.

Lemma handlers_use_the_normal_form_witness :
  verify (world_at (Date_of_DATE 19970))
         (activation_request " hasna-ab12-cd34-ef56-gh78" "PC-001") (db_of bound_license)
  = verify (world_at (Date_of_DATE 19970))
           (activation_request "HASNA-AB12-CD34-EF56-GH78" "PC-001") (db_of bound_license).
Proof.
  refine (proj2 (proj2 (proj1 (handlers_use_the_normal_form
            (world_at (Date_of_DATE 19970))
            (activation_request " hasna-ab12-cd34-ef56-gh78" "PC-001")
            (activation_request "HASNA-AB12-CD34-EF56-GH78" "PC-001")
            (db_of bound_license)
            " hasna-ab12-cd34-ef56-gh78" "HASNA-AB12-CD34-EF56-GH78"
            eq_refl eq_refl eq_refl) "PC-001" _ _))).
  - repeat split; discriminate.
  - repeat split; discriminate.
Defined.

(** ** When activation succeeds *)



(** ** The audit helper *)


(** ** Creating twice with the same draws *)



(** ** The shape of the store *)

Lemma serve_well_formed (db : Db) (c : Call) :
  fair_draws c -> well_formed db -> well_formed (serve db c).
Proof.
  intros Hfair Hwf. unfold serve, fair_draws in *.
  destruct c as [route w req]. simpl in *. destruct route; simpl.
  - destruct (activate_store w req db) as (resp & db' & Hrun & Hlic & _).
    rewrite Hrun. simpl.
    intros k l Hl.
    destruct Hlic as [Heq | (raw & m & l0 & Hv & Hl0 & _ & Heq)];
      rewrite Heq in Hl; [now apply Hwf |].
    destruct (decide (normalize raw = k)) as [<- | Hne].
    + rewrite lookup_insert_eq in Hl. injection Hl as <-.
      destruct (Hwf _ _ Hl0) as (Hk & Hs & Hn & _).
      destruct Hv as (_ & _ & _ & Hm).
      repeat split; try assumption.
      * simpl. congruence.
      * intros _. simpl. eexists. reflexivity.
    + rewrite lookup_insert_ne in Hl by exact Hne. now apply Hwf.
  - now rewrite verify_store.
  - rewrite create_cases.
    destruct (strict_ne _ _); [exact Hwf |].
    destruct (falsy _ || _); [exact Hwf |].
    destruct (body_client_name req), (body_expires_at req),
      (licenses db !! generateLicenseKey (Math_random w)) eqn:Hkey; try exact Hwf.
    intros k l Hl. simpl in Hl.
    destruct (decide (generateLicenseKey (Math_random w) = k)) as [<- | Hne].
    + rewrite lookup_insert_eq in Hl. injection Hl as <-. simpl.
      split; [reflexivity |].
      split; [exact (generated_key_groups _ Hfair) |].
      split; [now apply generated_key_normal_form |].
      split; [discriminate |]. intros [x Hx]. discriminate.
    + rewrite lookup_insert_ne in Hl by exact Hne. now apply Hwf.
  - now rewrite list_licenses_store.
  - rewrite resetMachine_cases.
    destruct (strict_ne _ _); [exact Hwf |].
    destruct (body_license_key req) as [raw |]; [| exact Hwf].
    destruct (licenses db !! normalize raw) as [l0 |] eqn:Hl0; [| exact Hwf].
    intros k l Hl. simpl in Hl.
    destruct (decide (normalize raw = k)) as [<- | Hne].
    + rewrite lookup_insert_eq in Hl. injection Hl as <-.
      destruct (Hwf _ _ Hl0) as (Hk & Hs & Hn & _).
      repeat split; try assumption.
      * discriminate.
      * intros [x Hx]. discriminate.
    + rewrite lookup_insert_ne in Hl by exact Hne. now apply Hwf.
Qed.

(** X20: the shape of the store is an invariant.  Started empty and
    driven by any sequence of calls whose draws come from [Math.random],
    the server only ever holds licenses stored under their own key, with a
    key of the generated shape that is its own normal form (so every
    license can be found by the key create answered with), never bound to
    the empty machine identifier, and with an activation time whenever
    they are bound. *)
Theorem store_stays_well_formed (calls : list Call) (db : Db) :
  Forall fair_draws calls ->
  well_formed db ->
  well_formed (serve_all calls db)
  /\ well_formed (serve_all calls (mkDb ∅ [])).
Proof.
  intros Hcalls.
  assert (Hgen : forall d, well_formed d -> well_formed (serve_all calls d)).
  { unfold serve_all. induction Hcalls as [| c calls Hc _ IH]; intros d Hd; [exact Hd |].
    cbn [fold_left]. apply IH. now apply serve_well_formed. }
  intros Hwf. split; [now apply Hgen |].
  apply Hgen. intros k l Hl. simpl in Hl. rewrite lookup_empty in Hl. discriminate.
Qed.

Lemma store_stays_well_formed_witness :
  let calls :=
    [mkCall PostAdminLicenseCreate
            (mkWorld (Some "s3cret") (Date_of_DATE 19970) alternating_draws)
            (create_request (Some "s3cret") "Moulin Test" 20000);
     mkCall PostLicenseActivate
            (mkWorld (Some "s3cret") (Date_of_DATE 19971) alternating_draws)
            (activation_request "hasna-asas-asas-asas-asas" "PC-001")] in
  Forall fair_draws calls
  /\ well_formed (serve_all calls (mkDb ∅ []))
  /\ machine_id <$> licenses (serve_all calls (mkDb ∅ [])) !! "HASNA-ASAS-ASAS-ASAS-ASAS"
     = Some (Some "PC-001").
Proof.
  cbv zeta.
  assert (H : Forall fair_draws
                [mkCall PostAdminLicenseCreate
                        (mkWorld (Some "s3cret") (Date_of_DATE 19970) alternating_draws)
                        (create_request (Some "s3cret") "Moulin Test" 20000);
                 mkCall PostLicenseActivate
                        (mkWorld (Some "s3cret") (Date_of_DATE 19971) alternating_draws)
                        (activation_request "hasna-asas-asas-asas-asas" "PC-001")]).
  { constructor; [exact alternating_draws_unit_interval |].
    constructor; [exact alternating_draws_unit_interval | constructor]. }
  assert (Hempty : well_formed (mkDb ∅ [])).
  { intros k l Hl. simpl in Hl. rewrite lookup_empty in Hl. discriminate. }
  split; [exact H |].
  split; [exact (proj2 (store_stays_well_formed _ (mkDb ∅ []) H Hempty)) |].
  reflexivity.
Defined.
